(** * cpackget: scripts/check_copyright_notice.py

    A shallow embedding of the copyright-header checker and the proofs of
    its specified behaviour.

    The script is glue around three outside capabilities: the file size
    query [os.path.getsize], the MIME sniffer [magic.from_file] and the
    comment extractor [comment_parser.extract_comments].  Each of them is
    an oracle of the environment, and each may raise.  The script itself is
    written in a small monad that records, in order, every call made to an
    oracle and every line printed, and that carries Python exceptions. *)

From Stdlib Require Import String Ascii List ZArith Bool Lia.
Import ListNotations.
Local Open Scope string_scope.
Local Open Scope Z_scope.

(** ** Python strings *)

Module PyStr.

(** The two control characters that occur in the script's literals. *)
Definition LF : string := String "010"%char EmptyString.
Definition TAB : string := String "009"%char EmptyString.

(** [sep.join(parts)]. *)
Definition join (sep : string) (parts : list string) : string :=
  String.concat sep parts.

(** [needle in hay] on [str]: true when [needle] occurs in [hay] as a
    contiguous run of characters, compared verbatim. *)
Fixpoint str_in (needle hay : string) : bool :=
  if String.prefix needle hay then true
  else match hay with
       | EmptyString => false
       | String _ rest => str_in needle rest
       end.

(** What "occurs as a substring" means, independent of any search. *)
Definition Substring (needle hay : string) : Prop :=
  exists before after, hay = before ++ needle ++ after.

End PyStr.
Import PyStr.

(** ** The environment *)

(** An instance of Python's [Exception]: its class name and what [str(e)]
    gives, which is all the script ever looks at. *)
Record PyException : Type := mkException {
  exc_class : string;
  exc_str : string
}.

(** A call either returns a value or raises. *)
Inductive outcome (A : Type) : Type :=
| Returned (a : A)
| Raised (e : PyException).
Arguments Returned {A} a.
Arguments Raised {A} e.

(** [comment_parser.common.Comment]; the script reads [text()] only. *)
Record Comment : Type := mkComment {
  text : string;
  line_number : Z;
  is_multiline : bool
}.

(** The outside world as the script sees it. *)
Record Env : Type := mkEnv {
  env_getsize : string -> outcome Z;
  env_from_file : string -> outcome string;
  env_extract_comments : string -> string -> outcome (list Comment)
}.

(** What the script does that can be observed from outside. *)
Inductive event : Type :=
| EvGetsize (path : string)
| EvFromFile (path : string)
| EvExtract (path mime : string)
| EvPrint (line : string).

(** ** The monad of script code *)

Definition Py (A : Type) : Type := Env -> list event * outcome A.

Definition ret {A : Type} (a : A) : Py A :=
  fun _ => ([], Returned a).

Definition bind {A B : Type} (m : Py A) (k : A -> Py B) : Py B :=
  fun env =>
    match m env with
    | (t, Returned a) => let (t', r) := k a env in ((t ++ t')%list, r)
    | (t, Raised e) => (t, Raised e)
    end.

(** [try: body / except Exception as e: ...]: the exception, if any, is
    handed to the continuation as a value together with what the body did
    before raising. *)
Definition attempt {A : Type} (body : Py A) : Py (PyException + A) :=
  fun env =>
    match body env with
    | (t, Returned a) => (t, Returned (inr a))
    | (t, Raised e) => (t, Returned (inl e))
    end.

Declare Scope py_scope.
Delimit Scope py_scope with py.
Notation "x <- m ;; k" := (bind m (fun x => k))
  (at level 61, m at next level, right associativity) : py_scope.
Notation "m ;; k" := (bind m (fun _ => k))
  (at level 61, right associativity) : py_scope.
Local Open Scope py_scope.

(** [print(line)], on an output stream that accepts the line: a write that
    fails is outside the model. *)
Definition print (line : string) : Py unit :=
  fun _ => ([EvPrint line], Returned tt).

(** [os.path.getsize(path)]. *)
Definition os_path_getsize (path : string) : Py Z :=
  fun env => ([EvGetsize path], env_getsize env path).

(** [magic.from_file(path, mime=True)]. *)
Definition magic_from_file (path : string) : Py string :=
  fun env => ([EvFromFile path], env_from_file env path).

(** [comment_parser.extract_comments(path, mime=mime)]. *)
Definition extract_comments (path mime : string) : Py (list Comment) :=
  fun env => ([EvExtract path mime], env_extract_comments env path mime).

(** [for x in xs: acc = body(acc, x)]. *)
Fixpoint for_each {A S : Type} (xs : list A) (body : S -> A -> Py S) (acc : S)
  : Py S :=
  match xs with
  | [] => ret acc
  | x :: rest => acc' <- body acc x ;; for_each rest body acc'
  end.

(** Observations on a run. *)
Definition trace_of {A : Type} (m : Py A) (env : Env) : list event :=
  fst (m env).
Definition result_of {A : Type} (m : Py A) (env : Env) : outcome A :=
  snd (m env).

(** The lines written to standard output, one per [print] call. *)
Fixpoint stdout (t : list event) : list string :=
  match t with
  | [] => []
  | EvPrint line :: rest => line :: stdout rest
  | _ :: rest => stdout rest
  end.

(** The (path, mime) pairs handed to the comment extractor. *)
Fixpoint extract_calls (t : list event) : list (string * string) :=
  match t with
  | [] => []
  | EvExtract path mime :: rest => (path, mime) :: extract_calls rest
  | _ :: rest => extract_calls rest
  end.

(** The paths handed to the MIME sniffer. *)
Fixpoint sniff_calls (t : list event) : list string :=
  match t with
  | [] => []
  | EvFromFile path :: rest => path :: sniff_calls rest
  | _ :: rest => sniff_calls rest
  end.

(** ** The script *)

Definition COPYRIGHT_TEXT : string :=
  "Copyright Contributors to the cpackget project.".
Definition LICENSE_TEXT : string :=
  "SPDX-License-Identifier: Apache-2.0".

(** The diagnostics, as the f-strings build them. *)
Definition mime_error_line (filename : string) (e : PyException) : string :=
  "# Error reading MIME type of " ++ filename ++ ": " ++ exc_str e.
Definition parse_error_line (filename : string) (e : PyException) : string :=
  "# Failed to parse comments in " ++ filename ++ ": " ++ exc_str e.
Definition error_header (filename : string) : string :=
  "# Copyright check error(s) in: " ++ filename.
Definition missing_copyright_line : string :=
  TAB ++ "# Missing or invalid copyright. Expected: " ++ COPYRIGHT_TEXT.
Definition missing_license_line : string :=
  TAB ++ "# Missing or invalid license. Expected: " ++ LICENSE_TEXT.

(** [if mime_type == "text/plain": mime_type = "text/x-c++"]. *)
Definition remap_mime (mime_type : string) : string :=
  if String.eqb mime_type "text/plain" then "text/x-c++" else mime_type.

(** The string the notices are searched in:
    ["\n".join(comment.text() for comment in ...)]. *)
Definition joined_comments (cs : list Comment) : string :=
  join LF (map text cs).

Definition check_file (filename : string) : Py Z :=
  size <- os_path_getsize filename ;;
  if size =? 0 then ret 0
  else
    sniffed <- attempt (magic_from_file filename) ;;
    match sniffed with
    | inl e => print (mime_error_line filename e) ;; ret 1
    | inr mime_type =>
        let mime_type := remap_mime mime_type in
        parsed <- attempt (cs <- extract_comments filename mime_type ;;
                           ret (joined_comments cs)) ;;
        match parsed with
        | inl e => print (parse_error_line filename e) ;; ret 1
        | inr comments =>
            let copyright_found := str_in COPYRIGHT_TEXT comments in
            let license_found := str_in LICENSE_TEXT comments in
            if copyright_found && license_found then ret 0
            else
              print (error_header filename) ;;
              (if negb copyright_found then print missing_copyright_line
               else ret tt) ;;
              (if negb license_found then print missing_license_line
               else ret tt) ;;
              ret 1
        end
    end.

Definition banner : string := "Checking copyright headers...".
Definition summary_line : string :=
  ">> error: One or more files are missing a valid copyright or license header".

(** The body of the loop: [ret |= check_file(filename)]. *)
Definition accumulate (code : Z) (filename : string) : Py Z :=
  r <- check_file filename ;; ret (Z.lor code r).

(** [main], from the point where [argparse] has produced [args.filenames]:
    the parser declares the single variadic positional [filenames]. *)
Definition main (filenames : list string) : Py Z :=
  print banner ;;
  code <- for_each filenames accumulate 0 ;;
  (if negb (code =? 0) then print summary_line else ret tt) ;;
  ret code.

(** [codes] are the values [check_file] returns on [filenames], path by
    path. *)
Definition checks_return
           (env : Env) (filenames : list string) (codes : list Z) : Prop :=
  Forall2 (fun f c => result_of (check_file f) env = Returned c)
          filenames codes.

(** ** Proof steps shared by the runs *)

Ltac unfold_script :=
  unfold check_file, bind, attempt, os_path_getsize, magic_from_file,
    extract_comments, print, ret, trace_of, result_of.

Ltac nonzero size :=
  let E := fresh "E" in
  destruct (Z.eqb_spec size 0) as [E|E]; [contradiction|clear E].

(** ** A sample environment *)

Module Fixtures.

Definition FileNotFoundError : PyException :=
  mkException "FileNotFoundError"
              "[Errno 2] No such file or directory: 'gone.go'".
Definition PermissionError : PyException :=
  mkException "PermissionError"
              "[Errno 13] Permission denied: 'locked.go'".
Definition UnsupportedError : PyException :=
  mkException "UnsupportedError"
              "Unsupported MIME type application/json".

Definition license_comment : Comment :=
  mkComment " SPDX-License-Identifier: Apache-2.0" 1 false.
Definition copyright_comment : Comment :=
  mkComment " Copyright Contributors to the cpackget project." 2 false.
Definition other_comment : Comment :=
  mkComment " Package main is the entry point." 5 false.

Definition sizes (path : string) : outcome Z :=
  if String.eqb path "gone.go" then Raised FileNotFoundError
  else if String.eqb path "empty.go" then Returned 0
  else Returned 256.

Definition sniffer (path : string) : outcome string :=
  if String.eqb path "locked.go" then Raised PermissionError
  else if String.eqb path "data.json" then Returned "application/json"
  else if String.eqb path "run.sh" then Returned "text/x-shellscript"
  else Returned "text/plain".

Definition extractor (path mime : string) : outcome (list Comment) :=
  if String.eqb mime "application/json" then Raised UnsupportedError
  else if String.eqb path "good.go" then
    Returned [license_comment; copyright_comment; other_comment]
  else if String.eqb path "run.sh" then Returned [copyright_comment]
  else if String.eqb path "half.go" then Returned [license_comment]
  else if String.eqb path "bare.go" then Returned []
  else Returned [other_comment].

Definition world : Env := mkEnv sizes sniffer extractor.

End Fixtures.

(** ** Facts about strings *)

Section StringFacts.

Lemma prefix_app (p s : string) : String.prefix p (p ++ s) = true.
Proof.
  induction p as [|c p IH]; simpl.
  - destruct s; reflexivity.
  - destruct (ascii_dec c c) as [_|ne]; [exact IH | contradiction].
Qed.

Lemma prefix_split (p s : string) :
  String.prefix p s = true -> exists rest, s = p ++ rest.
Proof.
  revert s. induction p as [|c p IH]; intros s H.
  - exists s. reflexivity.
  - destruct s as [|d s]; simpl in H; [discriminate|].
    destruct (ascii_dec c d) as [->|_]; [|discriminate].
    destruct (IH s H) as [rest ->]. exists rest. reflexivity.
Qed.

(** The search [str_in] decides exactly the substring relation. *)
Lemma str_in_Substring (needle hay : string) :
  str_in needle hay = true <-> Substring needle hay.
Proof.
  unfold Substring. split.
  - induction hay as [|c hay IH]; cbn [str_in]; intros H.
    + destruct (String.prefix needle "") eqn:P; [|discriminate].
      destruct (prefix_split _ _ P) as [rest E].
      exists "", rest. exact E.
    + destruct (String.prefix needle (String c hay)) eqn:P.
      * destruct (prefix_split _ _ P) as [rest E].
        exists "", rest. exact E.
      * destruct (IH H) as (before & after & ->).
        exists (String c before), after. reflexivity.
  - intros (before & after & ->).
    induction before as [|c before IH].
    + simpl append.
      destruct (needle ++ after) eqn:E; cbn [str_in];
        rewrite <- E, prefix_app; reflexivity.
    + change (String c before ++ needle ++ after)
        with (String c (before ++ needle ++ after)).
      cbn [str_in]. rewrite IH.
      destruct (String.prefix needle _); reflexivity.
Qed.

Lemma str_in_false (needle hay : string) :
  str_in needle hay = false <-> ~ Substring needle hay.
Proof.
  rewrite <- str_in_Substring.
  destruct (str_in needle hay); split; intros H;
    try reflexivity; try discriminate; congruence.
Qed.

Lemma join_nil (sep : string) : join sep [] = "".
Proof. reflexivity. Qed.

Lemma join_cons (sep x y : string) (rest : list string) :
  join sep (x :: y :: rest) = x ++ sep ++ join sep (y :: rest).
Proof. reflexivity. Qed.

Lemma remap_mime_plain : remap_mime "text/plain" = "text/x-c++".
Proof. reflexivity. Qed.

Lemma remap_mime_other (mime : string) :
  mime <> "text/plain" -> remap_mime mime = mime.
Proof.
  intros H. unfold remap_mime.
  destruct (String.eqb_spec mime "text/plain"); [contradiction | reflexivity].
Qed.

End StringFacts.

(** ** Runs on the sample environment *)

Example sample_empty :
  check_file "empty.go" Fixtures.world = ([EvGetsize "empty.go"], Returned 0).
Proof. reflexivity. Qed.

Example sample_good :
  check_file "good.go" Fixtures.world
  = ([EvGetsize "good.go"; EvFromFile "good.go";
      EvExtract "good.go" "text/x-c++"], Returned 0).
Proof. reflexivity. Qed.

Example sample_half :
  stdout (trace_of (check_file "half.go") Fixtures.world)
  = [error_header "half.go"; missing_copyright_line].
Proof. reflexivity. Qed.

Example sample_main :
  result_of (main ["good.go"; "run.sh"; "empty.go"; "good.go"]) Fixtures.world
  = Returned 1.
Proof. reflexivity. Qed.

(** ** Runs of [check_file], path by path *)

Section CheckFileRuns.

Variable env : Env.
Variable filename : string.

(** The size query is not guarded: what it raises leaves [check_file]. *)
Lemma run_getsize_raises (e : PyException) :
  env_getsize env filename = Raised e ->
  check_file filename env = ([EvGetsize filename], Raised e).
Proof. intros H. unfold_script. rewrite H. reflexivity. Qed.

Lemma run_size_zero :
  env_getsize env filename = Returned 0 ->
  check_file filename env = ([EvGetsize filename], Returned 0).
Proof. intros H. unfold_script. rewrite H. reflexivity. Qed.

Section NonEmpty.

Variable size : Z.
Hypothesis Hsize : env_getsize env filename = Returned size.
Hypothesis Hnonempty : size <> 0.

Lemma run_sniff_raises (e : PyException) :
  env_from_file env filename = Raised e ->
  check_file filename env
  = ([EvGetsize filename; EvFromFile filename;
      EvPrint (mime_error_line filename e)], Returned 1).
Proof.
  intros H. unfold_script. rewrite Hsize. nonzero size.
  rewrite H. reflexivity.
Qed.

Section Sniffed.

Variable mime : string.
Hypothesis Hmime : env_from_file env filename = Returned mime.

Lemma run_extract_raises (e : PyException) :
  env_extract_comments env filename (remap_mime mime) = Raised e ->
  check_file filename env
  = ([EvGetsize filename; EvFromFile filename;
      EvExtract filename (remap_mime mime);
      EvPrint (parse_error_line filename e)], Returned 1).
Proof.
  intros H. unfold_script. rewrite Hsize. nonzero size.
  rewrite Hmime. cbn iota beta. rewrite H. reflexivity.
Qed.

Lemma run_extracted (cs : list Comment) :
  env_extract_comments env filename (remap_mime mime) = Returned cs ->
  check_file filename env
  = let comments := joined_comments cs in
    let copyright_found := str_in COPYRIGHT_TEXT comments in
    let license_found := str_in LICENSE_TEXT comments in
    (([EvGetsize filename; EvFromFile filename;
       EvExtract filename (remap_mime mime)]
      ++ (if copyright_found && license_found then []
          else [EvPrint (error_header filename)]
               ++ (if copyright_found then []
                   else [EvPrint missing_copyright_line])
               ++ (if license_found then []
                   else [EvPrint missing_license_line])))%list,
     Returned (if copyright_found && license_found then 0 else 1)).
Proof.
  intros H. unfold_script. rewrite Hsize. nonzero size.
  rewrite Hmime. cbn iota beta. rewrite H. cbn iota beta zeta.
  destruct (str_in COPYRIGHT_TEXT (joined_comments cs));
    destruct (str_in LICENSE_TEXT (joined_comments cs)); reflexivity.
Qed.

End Sniffed.

End NonEmpty.

(** Whenever [check_file] returns, it returns 0 or 1. *)
Lemma check_file_code (code : Z) :
  result_of (check_file filename) env = Returned code ->
  code = 0 \/ code = 1.
Proof.
  unfold result_of.
  destruct (env_getsize env filename) as [size|e] eqn:Hs.
  2:{ rewrite (run_getsize_raises e Hs). discriminate. }
  destruct (Z.eq_dec size 0) as [->|Hn].
  { rewrite (run_size_zero Hs). intros [= <-]. now left. }
  destruct (env_from_file env filename) as [mime|e] eqn:Hm.
  2:{ rewrite (run_sniff_raises _ Hs Hn _ Hm). intros [= <-]. now right. }
  destruct (env_extract_comments env filename (remap_mime mime))
    as [cs|e] eqn:Hx.
  2:{ rewrite (run_extract_raises _ Hs Hn _ Hm _ Hx). intros [= <-]. now right. }
  rewrite (run_extracted _ Hs Hn _ Hm _ Hx). cbn zeta. simpl snd.
  destruct (_ && _); intros [= <-]; auto.
Qed.

(** Once the size is known, [check_file] returns. *)
Lemma check_file_returns (size : Z) :
  env_getsize env filename = Returned size ->
  exists code, result_of (check_file filename) env = Returned code.
Proof.
  intros Hs. unfold result_of.
  destruct (Z.eq_dec size 0) as [->|Hn].
  { rewrite (run_size_zero Hs). simpl. eauto. }
  destruct (env_from_file env filename) as [mime|e] eqn:Hm.
  2:{ rewrite (run_sniff_raises _ Hs Hn _ Hm). simpl. eauto. }
  destruct (env_extract_comments env filename (remap_mime mime))
    as [cs|e] eqn:Hx.
  2:{ rewrite (run_extract_raises _ Hs Hn _ Hm _ Hx). simpl. eauto. }
  rewrite (run_extracted _ Hs Hn _ Hm _ Hx). simpl. eauto.
Qed.

End CheckFileRuns.

(** ** Runs of [main] *)

Section MainRuns.

Variable env : Env.

Lemma run_loop (filenames : list string) (codes : list Z) :
  checks_return env filenames codes ->
  forall acc,
    for_each filenames accumulate acc env
    = (flat_map (fun f => trace_of (check_file f) env) filenames,
       Returned (fold_left Z.lor codes acc)).
Proof.
  induction 1 as [|f c fs cs Hf _ IH]; intros acc; [reflexivity|].
  cbn [for_each flat_map fold_left].
  unfold bind at 1. unfold accumulate at 1. unfold bind at 1.
  unfold result_of in Hf. unfold trace_of at 1.
  destruct (check_file f env) as [t o]. simpl in Hf. subst o.
  cbn [ret fst]. rewrite IH, app_nil_r. reflexivity.
Qed.

Lemma checks_return_codes (filenames : list string) (codes : list Z) :
  checks_return env filenames codes ->
  Forall (fun c => c = 0 \/ c = 1) codes.
Proof.
  induction 1 as [|f c fs cs Hf _ IH]; constructor; [|exact IH].
  exact (check_file_code env f c Hf).
Qed.

(** When every size can be read, every check returns a code. *)
Lemma checks_return_total (filenames : list string) :
  Forall (fun f => exists size, env_getsize env f = Returned size)
         filenames ->
  exists codes, checks_return env filenames codes.
Proof.
  induction 1 as [|f fs [size Hf] _ [codes IH]].
  - exists []. constructor.
  - destruct (check_file_returns env f size Hf) as [c Hc].
    exists (c :: codes). constructor; assumption.
Qed.

Lemma run_main (filenames : list string) (codes : list Z) :
  checks_return env filenames codes ->
  main filenames env
  = ((EvPrint banner
       :: flat_map (fun f => trace_of (check_file f) env) filenames
       ++ (if fold_left Z.lor codes 0 =? 0 then []
           else [EvPrint summary_line]))%list,
     Returned (fold_left Z.lor codes 0)).
Proof.
  intros H. unfold main.
  unfold bind at 1. cbn [print]. unfold bind at 1.
  rewrite (run_loop _ _ H 0).
  unfold bind. destruct (fold_left Z.lor codes 0 =? 0); reflexivity.
Qed.

End MainRuns.

Section OrOfCodes.

Lemma lor_code (a b : Z) :
  (a = 0 \/ a = 1) -> (b = 0 \/ b = 1) ->
  (Z.lor a b = 0 \/ Z.lor a b = 1)
  /\ (Z.lor a b = 0 <-> a = 0 /\ b = 0).
Proof. intros [-> | ->] [-> | ->]; cbn; intuition discriminate. Qed.

Lemma fold_lor_code (codes : list Z) :
  Forall (fun c => c = 0 \/ c = 1) codes ->
  forall acc, acc = 0 \/ acc = 1 ->
    (fold_left Z.lor codes acc = 0 \/ fold_left Z.lor codes acc = 1)
    /\ (fold_left Z.lor codes acc = 0
        <-> acc = 0 /\ Forall (fun c => c = 0) codes).
Proof.
  induction 1 as [|c cs Hc _ IH]; intros acc Hacc; cbn [fold_left].
  - split; [exact Hacc|]. split; [auto | tauto].
  - destruct (lor_code _ _ Hacc Hc) as [Hbit Hzero].
    destruct (IH _ Hbit) as [Hfold Hiff]. split; [exact Hfold|].
    rewrite Hiff, Hzero. split.
    + intros [[Ha Hc0] Hcs]. auto.
    + intros [Ha Hall]. inversion Hall; subst. auto.
Qed.

Lemma some_one_not_all_zero (codes : list Z) :
  Forall (fun c => c = 0 \/ c = 1) codes ->
  (~ Forall (fun c => c = 0) codes <-> Exists (fun c => c = 1) codes).
Proof.
  induction 1 as [|c cs Hc _ IH].
  - split; [intros H; exfalso; apply H; constructor | inversion 1].
  - split.
    + intros Hn. destruct Hc as [-> | ->]; [|left; reflexivity].
      right. apply IH. intros Hall. apply Hn. constructor; auto.
    + intros Hex Hall. inversion Hall as [|? ? Hc0 Hcs]; subst.
      inversion Hex as [? ? Hone|? ? Hrest]; subst.
      * discriminate.
      * apply IH in Hrest. contradiction.
Qed.

End OrOfCodes.

(** ** The diagnostics are told apart by their first characters *)

Section Diagnostics.

Lemma mime_error_not_header (f f' : string) (e : PyException) :
  mime_error_line f e <> error_header f'.
Proof. unfold mime_error_line, error_header. simpl. discriminate. Qed.

Lemma mime_error_not_missing (f : string) (e : PyException) :
  mime_error_line f e <> missing_copyright_line
  /\ mime_error_line f e <> missing_license_line.
Proof.
  unfold mime_error_line, missing_copyright_line, missing_license_line.
  simpl. split; discriminate.
Qed.

Lemma mime_error_not_parse_error (f f' : string) (e e' : PyException) :
  mime_error_line f e <> parse_error_line f' e'.
Proof. unfold mime_error_line, parse_error_line. simpl. discriminate. Qed.

Lemma parse_error_not_header (f f' : string) (e : PyException) :
  parse_error_line f e <> error_header f'.
Proof. unfold parse_error_line, error_header. simpl. discriminate. Qed.

Lemma parse_error_not_missing (f : string) (e : PyException) :
  parse_error_line f e <> missing_copyright_line
  /\ parse_error_line f e <> missing_license_line.
Proof.
  unfold parse_error_line, missing_copyright_line, missing_license_line.
  simpl. split; discriminate.
Qed.

End Diagnostics.

(** ** The specified behaviour *)

(** The loop of [main] where nothing raises.  On a list of paths, each of
    which [check_file] answers with a code, [main] prints the banner, runs
    [check_file] on every path in input order whatever the earlier ones
    answered, and returns the OR of the codes.  That value is 0 exactly
    when every code is 0 and 1 exactly when some code is 1; when it is not
    0 the summary line closes the output.  On the empty list [main]
    returns 0. *)
Theorem main_or_of_checks (env : Env) :
  result_of (main []) env = Returned 0
  /\ forall (filenames : list string) (codes : list Z),
      checks_return env filenames codes ->
      let code := fold_left Z.lor codes 0 in
      result_of (main filenames) env = Returned code
      /\ trace_of (main filenames) env
         = (EvPrint banner
             :: flat_map (fun f => trace_of (check_file f) env) filenames
             ++ (if code =? 0 then [] else [EvPrint summary_line]))%list
      /\ (code = 0 <-> Forall (fun c => c = 0) codes)
      /\ (code = 1 <-> Exists (fun c => c = 1) codes).
Proof.
  split; [reflexivity|].
  intros filenames codes H code. subst code.
  unfold result_of, trace_of. rewrite (run_main _ _ _ H). cbn [fst snd].
  pose proof (checks_return_codes _ _ _ H) as Hbits.
  destruct (fold_lor_code _ Hbits 0 (or_introl eq_refl)) as [Hcode Hzero].
  pose proof (some_one_not_all_zero _ Hbits) as Hone.
  split; [reflexivity|]. split; [reflexivity|]. split; [tauto|].
  split.
  - intros H1. apply Hone. intros Hall.
    assert (fold_left Z.lor codes 0 = 0) by tauto. lia.
  - intros Hex. apply Hone in Hex.
    destruct Hcode as [H0|H1]; [|exact H1]. exfalso. tauto.
Qed.

Lemma main_or_of_checks_witness :
  checks_return Fixtures.world ["good.go"; "run.sh"; "empty.go"; "half.go"]
                [0; 1; 0; 1]
  /\ result_of (main ["good.go"; "run.sh"; "empty.go"; "half.go"])
               Fixtures.world
     = Returned 1.
Proof.
  assert (H : checks_return Fixtures.world
                ["good.go"; "run.sh"; "empty.go"; "half.go"] [0; 1; 0; 1])
    by (repeat constructor).
  split; [exact H|].
  exact (proj1 (proj2 (main_or_of_checks Fixtures.world) _ _ H)).
Defined.

(** C1, at a list that holds a path whose size cannot be read.  The file
    before it fails its check with code 1 and the file after it would fail
    too, yet [main] does not return 1: the exception of the size query
    leaves the loop, the file after it is never looked at and the summary
    line is not printed.  The loop itself has no handler; the exception is
    the one that the unguarded size query lets out of [check_file]. *)
Theorem main_stops_at_unreadable_file :
  let filenames := ["half.go"; "gone.go"; "run.sh"] in
  result_of (check_file "half.go") Fixtures.world = Returned 1
  /\ result_of (check_file "run.sh") Fixtures.world = Returned 1
  /\ result_of (main filenames) Fixtures.world
     = Raised Fixtures.FileNotFoundError
  /\ ~ In (EvGetsize "run.sh") (trace_of (main filenames) Fixtures.world)
  /\ ~ In summary_line (stdout (trace_of (main filenames) Fixtures.world)).
Proof.
  cbv zeta. split; [reflexivity|]. split; [reflexivity|].
  split; [reflexivity|]. split.
  - intros H. cbn in H.
    repeat (destruct H as [H | H]; [discriminate|]). exact H.
  - intros H. cbn in H.
    repeat (destruct H as [H | H]; [discriminate|]). exact H.
Qed.

(** C2.  A file of size zero passes at once: [check_file] returns 0 after
    the size query alone, whatever the sniffer and the extractor would have
    said about the file; neither is called. *)
Theorem empty_file_passes (env : Env) (filename : string) :
  env_getsize env filename = Returned 0 ->
  result_of (check_file filename) env = Returned 0
  /\ trace_of (check_file filename) env = [EvGetsize filename]
  /\ sniff_calls (trace_of (check_file filename) env) = []
  /\ extract_calls (trace_of (check_file filename) env) = [].
Proof.
  intros H. unfold result_of, trace_of. rewrite (run_size_zero _ _ H).
  repeat split.
Qed.

Lemma empty_file_passes_witness :
  env_getsize Fixtures.world "empty.go" = Returned 0
  /\ result_of (check_file "empty.go") Fixtures.world = Returned 0.
Proof.
  split; [reflexivity|].
  exact (proj1 (empty_file_passes Fixtures.world "empty.go" eq_refl)).
Defined.

(** C3.  A non-empty file whose type is sniffed and whose comments are
    extracted passes when the comment texts, joined by newlines, contain
    both [COPYRIGHT_TEXT] and [LICENSE_TEXT] verbatim. *)
Theorem both_notices_pass
        (env : Env) (filename : string) (size : Z) (mime : string)
        (cs : list Comment) :
  env_getsize env filename = Returned size ->
  size <> 0 ->
  env_from_file env filename = Returned mime ->
  env_extract_comments env filename (remap_mime mime) = Returned cs ->
  Substring "Copyright Contributors to the cpackget project."
            (String.concat LF (map text cs)) ->
  Substring "SPDX-License-Identifier: Apache-2.0"
            (String.concat LF (map text cs)) ->
  result_of (check_file filename) env = Returned 0.
Proof.
  intros Hs Hn Hm Hx Hc Hl. unfold result_of.
  rewrite (run_extracted _ _ _ Hs Hn _ Hm _ Hx). cbn zeta. cbn [snd].
  apply str_in_Substring in Hc, Hl.
  unfold joined_comments, join, COPYRIGHT_TEXT, LICENSE_TEXT.
  rewrite Hc, Hl. reflexivity.
Qed.

Lemma both_notices_pass_witness :
  result_of (check_file "good.go") Fixtures.world = Returned 0.
Proof.
  apply (both_notices_pass Fixtures.world "good.go" 256 "text/plain"
           [Fixtures.license_comment; Fixtures.copyright_comment;
            Fixtures.other_comment]).
  - reflexivity.
  - lia.
  - reflexivity.
  - reflexivity.
  - exists (" SPDX-License-Identifier: Apache-2.0" ++ LF ++ " "),
           (LF ++ " Package main is the entry point.").
    reflexivity.
  - exists " ",
           (LF ++ " Copyright Contributors to the cpackget project."
               ++ LF ++ " Package main is the entry point.").
    reflexivity.
Defined.

(** C4.  A non-empty file whose joined comment text lacks a notice fails:
    [check_file] returns 1 and prints the header naming the file, then one
    line for each notice that is missing, the copyright line before the
    license line; each line quotes the text that was expected. *)
Theorem missing_notice_fails
        (env : Env) (filename : string) (size : Z) (mime : string)
        (cs : list Comment) :
  env_getsize env filename = Returned size ->
  size <> 0 ->
  env_from_file env filename = Returned mime ->
  env_extract_comments env filename (remap_mime mime) = Returned cs ->
  let comments := String.concat LF (map text cs) in
  let out := stdout (trace_of (check_file filename) env) in
  let header := "# Copyright check error(s) in: " ++ filename in
  let no_copyright :=
    TAB ++ "# Missing or invalid copyright. Expected: "
        ++ "Copyright Contributors to the cpackget project." in
  let no_license :=
    TAB ++ "# Missing or invalid license. Expected: "
        ++ "SPDX-License-Identifier: Apache-2.0" in
  ~ (Substring COPYRIGHT_TEXT comments /\ Substring LICENSE_TEXT comments) ->
  result_of (check_file filename) env = Returned 1
  /\ (~ Substring COPYRIGHT_TEXT comments -> Substring LICENSE_TEXT comments ->
      out = [header; no_copyright])
  /\ (Substring COPYRIGHT_TEXT comments -> ~ Substring LICENSE_TEXT comments ->
      out = [header; no_license])
  /\ (~ Substring COPYRIGHT_TEXT comments ->
      ~ Substring LICENSE_TEXT comments ->
      out = [header; no_copyright; no_license]).
Proof.
  intros Hs Hn Hm Hx comments out header no_copyright no_license Hlack.
  subst out. unfold result_of, trace_of.
  rewrite (run_extracted _ _ _ Hs Hn _ Hm _ Hx). cbn zeta. cbn [fst snd].
  change (joined_comments cs) with comments.
  rewrite <- !str_in_false. rewrite <- !str_in_Substring.
  rewrite <- !str_in_Substring in Hlack.
  destruct (str_in COPYRIGHT_TEXT comments);
    destruct (str_in LICENSE_TEXT comments);
    repeat split; intros; try reflexivity; try congruence.
  exfalso. apply Hlack. split; reflexivity.
Qed.

Lemma missing_notice_fails_witness :
  result_of (check_file "half.go") Fixtures.world = Returned 1
  /\ stdout (trace_of (check_file "half.go") Fixtures.world)
     = ["# Copyright check error(s) in: half.go";
        TAB ++ "# Missing or invalid copyright. Expected: "
            ++ "Copyright Contributors to the cpackget project."].
Proof.
  assert (Hno : ~ Substring COPYRIGHT_TEXT
                   (String.concat LF (map text [Fixtures.license_comment])))
    by (apply str_in_false; reflexivity).
  assert (Hyes : Substring LICENSE_TEXT
                   (String.concat LF (map text [Fixtures.license_comment])))
    by (exists " ", ""; reflexivity).
  destruct (missing_notice_fails Fixtures.world "half.go" 256 "text/plain"
              [Fixtures.license_comment] eq_refl
              ltac:(lia) eq_refl eq_refl
              (fun both => Hno (proj1 both)))
    as (Hcode & Honly_license & _ & _).
  split; [exact Hcode | exact (Honly_license Hno Hyes)].
Defined.

(** C5.  On a non-empty file whose sniffed type is exactly [text/plain],
    the type handed to the comment extractor is [text/x-c++]; any other
    sniffed type is handed over as it is.  The extractor is called once,
    on the file itself. *)
Theorem plain_text_is_read_as_cpp
        (env : Env) (filename : string) (size : Z) (mime : string) :
  env_getsize env filename = Returned size ->
  size <> 0 ->
  env_from_file env filename = Returned mime ->
  (mime = "text/plain" ->
   extract_calls (trace_of (check_file filename) env)
   = [(filename, "text/x-c++")])
  /\ (mime <> "text/plain" ->
      extract_calls (trace_of (check_file filename) env)
      = [(filename, mime)]).
Proof.
  intros Hs Hn Hm.
  assert (H : extract_calls (trace_of (check_file filename) env)
              = [(filename, remap_mime mime)]).
  { unfold trace_of.
    destruct (env_extract_comments env filename (remap_mime mime))
      as [cs|e] eqn:Hx.
    - rewrite (run_extracted _ _ _ Hs Hn _ Hm _ Hx). cbn zeta. cbn [fst].
      destruct (_ && _); [reflexivity|].
      destruct (str_in COPYRIGHT_TEXT _); destruct (str_in LICENSE_TEXT _);
        reflexivity.
    - rewrite (run_extract_raises _ _ _ Hs Hn _ Hm _ Hx). reflexivity. }
  split.
  - intros ->. exact H.
  - intros Hother. rewrite H, (remap_mime_other _ Hother). reflexivity.
Qed.

Lemma plain_text_is_read_as_cpp_witness :
  extract_calls (trace_of (check_file "good.go") Fixtures.world)
  = [("good.go", "text/x-c++")]
  /\ extract_calls (trace_of (check_file "run.sh") Fixtures.world)
     = [("run.sh", "text/x-shellscript")].
Proof.
  split.
  - apply (proj1 (plain_text_is_read_as_cpp Fixtures.world "good.go" 256
                    "text/plain" eq_refl ltac:(lia) eq_refl)).
    reflexivity.
  - apply (proj2 (plain_text_is_read_as_cpp Fixtures.world "run.sh" 256
                    "text/x-shellscript" eq_refl ltac:(lia) eq_refl)).
    discriminate.
Defined.

(** C6.  When the MIME sniffer raises on a non-empty file, [check_file]
    prints the MIME-error line, which carries the file name and the error,
    and returns 1.  Nothing else is printed, the extractor is not called,
    and the line is none of the missing-notice lines. *)
Theorem mime_error_fails
        (env : Env) (filename : string) (size : Z) (e : PyException) :
  env_getsize env filename = Returned size ->
  size <> 0 ->
  env_from_file env filename = Raised e ->
  let diagnostic :=
    "# Error reading MIME type of " ++ filename ++ ": " ++ exc_str e in
  result_of (check_file filename) env = Returned 1
  /\ trace_of (check_file filename) env
     = [EvGetsize filename; EvFromFile filename; EvPrint diagnostic]
  /\ stdout (trace_of (check_file filename) env) = [diagnostic]
  /\ extract_calls (trace_of (check_file filename) env) = []
  /\ (forall f, diagnostic <> error_header f)
  /\ diagnostic <> missing_copyright_line
  /\ diagnostic <> missing_license_line.
Proof.
  intros Hs Hn Hm diagnostic. unfold result_of, trace_of.
  rewrite (run_sniff_raises _ _ _ Hs Hn _ Hm).
  repeat split.
  - intros f. apply mime_error_not_header.
  - apply mime_error_not_missing.
  - apply mime_error_not_missing.
Qed.

Lemma mime_error_fails_witness :
  env_from_file Fixtures.world "locked.go" = Raised Fixtures.PermissionError
  /\ result_of (check_file "locked.go") Fixtures.world = Returned 1
  /\ stdout (trace_of (check_file "locked.go") Fixtures.world)
     = ["# Error reading MIME type of locked.go: "
          ++ "[Errno 13] Permission denied: 'locked.go'"].
Proof.
  split; [reflexivity|].
  destruct (mime_error_fails Fixtures.world "locked.go" 256
              Fixtures.PermissionError eq_refl ltac:(lia) eq_refl)
    as (Hcode & _ & Hout & _).
  split; [exact Hcode | exact Hout].
Defined.

(** C7.  When comment extraction raises on a non-empty file, [check_file]
    prints the parse-failure line, which carries the file name and the
    error, and returns 1.  That line is all it prints: no notice is looked
    for and no missing-notice line appears. *)
Theorem parse_error_fails
        (env : Env) (filename : string) (size : Z) (mime : string)
        (e : PyException) :
  env_getsize env filename = Returned size ->
  size <> 0 ->
  env_from_file env filename = Returned mime ->
  env_extract_comments env filename (remap_mime mime) = Raised e ->
  let diagnostic :=
    "# Failed to parse comments in " ++ filename ++ ": " ++ exc_str e in
  result_of (check_file filename) env = Returned 1
  /\ trace_of (check_file filename) env
     = [EvGetsize filename; EvFromFile filename;
        EvExtract filename (remap_mime mime); EvPrint diagnostic]
  /\ stdout (trace_of (check_file filename) env) = [diagnostic]
  /\ (forall f, diagnostic <> error_header f)
  /\ diagnostic <> missing_copyright_line
  /\ diagnostic <> missing_license_line.
Proof.
  intros Hs Hn Hm Hx diagnostic. unfold result_of, trace_of.
  rewrite (run_extract_raises _ _ _ Hs Hn _ Hm _ Hx).
  repeat split.
  - intros f. apply parse_error_not_header.
  - apply parse_error_not_missing.
  - apply parse_error_not_missing.
Qed.

Lemma parse_error_fails_witness :
  env_extract_comments Fixtures.world "data.json" "application/json"
  = Raised Fixtures.UnsupportedError
  /\ result_of (check_file "data.json") Fixtures.world = Returned 1
  /\ stdout (trace_of (check_file "data.json") Fixtures.world)
     = ["# Failed to parse comments in data.json: "
          ++ "Unsupported MIME type application/json"].
Proof.
  split; [reflexivity|].
  destruct (parse_error_fails Fixtures.world "data.json" 256
              "application/json" Fixtures.UnsupportedError
              eq_refl ltac:(lia) eq_refl eq_refl)
    as (Hcode & _ & Hout & _).
  split; [exact Hcode | exact Hout].
Defined.

(** C8, at a path whose size cannot be read.  The size query stands
    outside both [try] blocks: what it raises is not turned into a
    diagnostic and a code, it leaves [check_file] and then [main], and the
    files after it are never looked at. *)
Theorem getsize_error_escapes :
  check_file "gone.go" Fixtures.world
  = ([EvGetsize "gone.go"], Raised Fixtures.FileNotFoundError)
  /\ main ["half.go"; "gone.go"; "run.sh"] Fixtures.world
     = ([EvPrint banner;
         EvGetsize "half.go"; EvFromFile "half.go";
         EvExtract "half.go" "text/x-c++";
         EvPrint (error_header "half.go"); EvPrint missing_copyright_line;
         EvGetsize "gone.go"],
        Raised Fixtures.FileNotFoundError).
Proof. split; reflexivity. Qed.

(** C9.  A run of [check_file] that returns 0 prints nothing; it is the
    run on a file of size zero or the run that found both notices. *)
Theorem success_is_silent (env : Env) (filename : string) :
  result_of (check_file filename) env = Returned 0 ->
  stdout (trace_of (check_file filename) env) = []
  /\ (env_getsize env filename = Returned 0
      \/ exists size mime cs,
          env_getsize env filename = Returned size
          /\ size <> 0
          /\ env_from_file env filename = Returned mime
          /\ env_extract_comments env filename (remap_mime mime) = Returned cs
          /\ Substring COPYRIGHT_TEXT (joined_comments cs)
          /\ Substring LICENSE_TEXT (joined_comments cs)).
Proof.
  unfold result_of, trace_of.
  destruct (env_getsize env filename) as [size|e] eqn:Hs.
  2:{ rewrite (run_getsize_raises _ _ e Hs). discriminate. }
  destruct (Z.eq_dec size 0) as [->|Hn].
  { rewrite (run_size_zero _ _ Hs). intros _. split; [reflexivity|]. now left. }
  destruct (env_from_file env filename) as [mime|e] eqn:Hm.
  2:{ rewrite (run_sniff_raises _ _ _ Hs Hn _ Hm). discriminate. }
  destruct (env_extract_comments env filename (remap_mime mime))
    as [cs|e] eqn:Hx.
  2:{ rewrite (run_extract_raises _ _ _ Hs Hn _ Hm _ Hx). discriminate. }
  rewrite (run_extracted _ _ _ Hs Hn _ Hm _ Hx). cbn zeta. cbn [fst snd].
  destruct (str_in COPYRIGHT_TEXT (joined_comments cs)) eqn:Hc;
    destruct (str_in LICENSE_TEXT (joined_comments cs)) eqn:Hl;
    try discriminate.
  intros _. split; [reflexivity|]. right.
  exists size, mime, cs. apply str_in_Substring in Hc, Hl. auto 10.
Qed.

Lemma success_is_silent_witness :
  result_of (check_file "good.go") Fixtures.world = Returned 0
  /\ stdout (trace_of (check_file "good.go") Fixtures.world) = [].
Proof.
  split; [reflexivity|].
  exact (proj1 (success_is_silent Fixtures.world "good.go" eq_refl)).
Defined.

(** C10.  When extraction succeeds on a non-empty file and yields no
    comment, the joined text is the empty string, so [check_file] returns 1
    and prints the header and both missing-notice lines. *)
Theorem no_comments_fails
        (env : Env) (filename : string) (size : Z) (mime : string) :
  env_getsize env filename = Returned size ->
  size <> 0 ->
  env_from_file env filename = Returned mime ->
  env_extract_comments env filename (remap_mime mime) = Returned [] ->
  joined_comments [] = ""
  /\ result_of (check_file filename) env = Returned 1
  /\ stdout (trace_of (check_file filename) env)
     = ["# Copyright check error(s) in: " ++ filename;
        TAB ++ "# Missing or invalid copyright. Expected: "
            ++ "Copyright Contributors to the cpackget project.";
        TAB ++ "# Missing or invalid license. Expected: "
            ++ "SPDX-License-Identifier: Apache-2.0"].
Proof.
  intros Hs Hn Hm Hx. split; [reflexivity|].
  unfold result_of, trace_of.
  rewrite (run_extracted _ _ _ Hs Hn _ Hm _ Hx). split; reflexivity.
Qed.

Lemma no_comments_fails_witness :
  env_extract_comments Fixtures.world "bare.go" "text/x-c++" = Returned []
  /\ result_of (check_file "bare.go") Fixtures.world = Returned 1.
Proof.
  split; [reflexivity|].
  exact (proj1 (proj2 (no_comments_fails Fixtures.world "bare.go" 256
                         "text/plain" eq_refl ltac:(lia) eq_refl eq_refl))).
Defined.

(** ** Further facts about strings: notices and the newline separator *)

Section NoticeInComments.

Lemma string_app_assoc (a b c : string) : (a ++ b) ++ c = a ++ b ++ c.
Proof. induction a as [|x a IH]; simpl; [|rewrite IH]; reflexivity. Qed.

Lemma string_app_nil_r (a : string) : a ++ "" = a.
Proof. induction a as [|x a IH]; simpl; [|rewrite IH]; reflexivity. Qed.

Lemma Substring_refl_app (before needle after : string) :
  Substring needle (before ++ needle ++ after).
Proof. exists before, after. reflexivity. Qed.

Lemma Substring_app_l (needle a b : string) :
  Substring needle a -> Substring needle (a ++ b).
Proof.
  intros (before & after & ->). exists before, (after ++ b).
  rewrite !string_app_assoc. reflexivity.
Qed.

Lemma Substring_app_r (needle a b : string) :
  Substring needle b -> Substring needle (a ++ b).
Proof.
  intros (before & after & ->). exists (a ++ before), after.
  rewrite !string_app_assoc. reflexivity.
Qed.

Lemma Substring_of_empty (needle : string) :
  Substring needle "" -> needle = "".
Proof.
  intros (before & after & H).
  destruct before; [|discriminate]. destruct needle; [reflexivity|discriminate].
Qed.

(** Two ways of cutting one string overlap in a common middle. *)
Lemma app_eq_app (x y a b : string) :
  x ++ y = a ++ b ->
  (exists m, a = x ++ m /\ y = m ++ b) \/ (exists m, x = a ++ m /\ b = m ++ y).
Proof.
  revert a. induction x as [|c x IH]; intros a H.
  - left. exists a. split; [reflexivity | exact H].
  - destruct a as [|d a].
    + right. exists (String c x). split; [reflexivity | symmetry; exact H].
    + simpl in H. injection H as -> H.
      destruct (IH a H) as [(m & -> & ->) | (m & -> & ->)].
      * left. exists m. split; reflexivity.
      * right. exists m. split; reflexivity.
Qed.

(** A needle that does not hold the character [c] cannot lie across a [c]:
    it is found on one side of it. *)
Lemma Substring_across (c : ascii) (needle a b : string) :
  ~ Substring (String c "") needle ->
  Substring needle (a ++ String c b) ->
  Substring needle a \/ Substring needle b.
Proof.
  intros Hfree (before & after & H). symmetry in H.
  destruct (app_eq_app _ _ _ _ H) as [(m & -> & Hm) | (m & -> & Hm)].
  - destruct (app_eq_app _ _ _ _ Hm) as [(k & -> & _) | (k & -> & Hk)].
    + left. apply Substring_refl_app.
    + destruct k as [|d k].
      * left. rewrite string_app_nil_r. exists before, "".
        rewrite string_app_nil_r. reflexivity.
      * simpl in Hk. injection Hk as <- _. exfalso. apply Hfree.
        exists m, k. reflexivity.
  - destruct m as [|d m].
    + simpl in Hm. destruct needle as [|d needle].
      * left. exists a, "". rewrite string_app_nil_r. reflexivity.
      * simpl in Hm. injection Hm as <- _. exfalso. apply Hfree.
        exists "", needle. reflexivity.
    + simpl in Hm. injection Hm as _ ->. right. apply Substring_refl_app.
Qed.

(** A needle free of newlines occurs in the newline-joined parts exactly
    when it occurs in one of the parts. *)
Lemma Substring_join (needle : string) (parts : list string) :
  needle <> "" ->
  ~ Substring LF needle ->
  (Substring needle (join LF parts)
   <-> exists part, In part parts /\ Substring needle part).
Proof.
  intros Hne Hfree. split.
  - induction parts as [|x rest IH]; intros H.
    + apply Substring_of_empty in H. contradiction.
    + destruct rest as [|y rest].
      * exists x. split; [left; reflexivity | exact H].
      * rewrite join_cons in H.
        change (x ++ LF ++ join LF (y :: rest))
          with (x ++ String "010"%char (join LF (y :: rest))) in H.
        destruct (Substring_across _ _ _ _ Hfree H) as [Hx | Hrest].
        -- exists x. split; [left; reflexivity | exact Hx].
        -- destruct (IH Hrest) as (p & Hin & Hp).
           exists p. split; [right; exact Hin | exact Hp].
  - intros (p & Hin & Hp).
    induction parts as [|x rest IH]; [contradiction|].
    destruct rest as [|y rest].
    + destruct Hin as [<- | []]. exact Hp.
    + rewrite join_cons. destruct Hin as [<- | Hin].
      * apply Substring_app_l. exact Hp.
      * apply Substring_app_r, Substring_app_r. apply IH. exact Hin.
Qed.

Lemma notices_are_single_line :
  COPYRIGHT_TEXT <> "" /\ ~ Substring LF COPYRIGHT_TEXT
  /\ LICENSE_TEXT <> "" /\ ~ Substring LF LICENSE_TEXT.
Proof.
  repeat split; try discriminate; apply str_in_false; reflexivity.
Qed.

Lemma remap_mime_never_plain (mime : string) :
  remap_mime mime <> "text/plain".
Proof.
  unfold remap_mime. destruct (String.eqb_spec mime "text/plain").
  - discriminate.
  - assumption.
Qed.

End NoticeInComments.

(** ** More on [check_file] *)

Section CheckFileMore.

Variable env : Env.
Variable filename : string.

(** The six ways a run of [check_file] can go, each with its trace. *)
Lemma check_file_paths :
  (exists e, env_getsize env filename = Raised e
             /\ check_file filename env = ([EvGetsize filename], Raised e))
  \/ (env_getsize env filename = Returned 0
      /\ check_file filename env = ([EvGetsize filename], Returned 0))
  \/ (exists e,
         check_file filename env
         = ([EvGetsize filename; EvFromFile filename;
             EvPrint (mime_error_line filename e)], Returned 1))
  \/ (exists mime e,
         check_file filename env
         = ([EvGetsize filename; EvFromFile filename;
             EvExtract filename (remap_mime mime);
             EvPrint (parse_error_line filename e)], Returned 1))
  \/ (exists mime,
         check_file filename env
         = ([EvGetsize filename; EvFromFile filename;
             EvExtract filename (remap_mime mime)], Returned 0))
  \/ (exists mime missing,
         check_file filename env
         = ((EvGetsize filename :: EvFromFile filename
              :: EvExtract filename (remap_mime mime)
              :: EvPrint (error_header filename)
              :: map EvPrint missing)%list, Returned 1)).
Proof.
  destruct (env_getsize env filename) as [size|e] eqn:Hs.
  2:{ left. exists e. split; [reflexivity|]. apply run_getsize_raises, Hs. }
  right. destruct (Z.eq_dec size 0) as [->|Hn].
  { left. split; [reflexivity|]. apply run_size_zero, Hs. }
  right. destruct (env_from_file env filename) as [mime|e] eqn:Hm.
  2:{ left. exists e. apply (run_sniff_raises _ _ _ Hs Hn _ Hm). }
  right.
  destruct (env_extract_comments env filename (remap_mime mime))
    as [cs|e] eqn:Hx.
  2:{ left. exists mime, e. apply (run_extract_raises _ _ _ Hs Hn _ Hm _ Hx). }
  right. rewrite (run_extracted _ _ _ Hs Hn _ Hm _ Hx). cbn zeta.
  destruct (str_in COPYRIGHT_TEXT (joined_comments cs));
    destruct (str_in LICENSE_TEXT (joined_comments cs)); cbn.
  - left. exists mime. reflexivity.
  - right. exists mime, [missing_license_line]. reflexivity.
  - right. exists mime, [missing_copyright_line]. reflexivity.
  - right. exists mime, [missing_copyright_line; missing_license_line].
    reflexivity.
Qed.

(** A run that returns 0 has printed nothing. *)
Lemma zero_is_silent :
  result_of (check_file filename) env = Returned 0 ->
  stdout (trace_of (check_file filename) env) = [].
Proof.
  unfold result_of, trace_of.
  destruct check_file_paths
    as [(e & _ & ->) | [(_ & ->) | [(e & ->) | [(m & e & ->)
       | [(m & ->) | (m & missing & ->)]]]]];
    cbn; intros H; try reflexivity; discriminate.
Qed.

End CheckFileMore.

(** ** More on [main] *)

Section MainMore.

Variable env : Env.

Lemma stdout_app (t u : list event) :
  stdout (t ++ u) = (stdout t ++ stdout u)%list.
Proof.
  induction t as [|ev t IH]; [reflexivity|].
  destruct ev; cbn; rewrite IH; reflexivity.
Qed.

(** The loop stops at the first file on which [check_file] raises. *)
Lemma run_loop_raises
      (pre : list string) (codes : list Z) (f : string) (post : list string)
      (e : PyException) :
  checks_return env pre codes ->
  result_of (check_file f) env = Raised e ->
  forall acc,
    for_each (pre ++ f :: post) accumulate acc env
    = ((flat_map (fun g => trace_of (check_file g) env) pre
        ++ trace_of (check_file f) env)%list, Raised e).
Proof.
  intros Hpre Hf. induction Hpre as [|g c gs cs Hg _ IH]; intros acc.
  - cbn [app for_each flat_map].
    unfold bind at 1. unfold accumulate at 1. unfold bind at 1.
    unfold result_of in Hf. unfold trace_of.
    destruct (check_file f env) as [t o]. simpl in Hf. subst o. reflexivity.
  - cbn [app for_each flat_map].
    unfold bind at 1. unfold accumulate at 1. unfold bind at 1.
    unfold result_of in Hg. unfold trace_of at 1.
    destruct (check_file g env) as [t o]. simpl in Hg. subst o.
    cbn [ret fst]. rewrite IH, app_nil_r, app_assoc. reflexivity.
Qed.

Lemma run_main_raises
      (pre : list string) (codes : list Z) (f : string) (post : list string)
      (e : PyException) :
  checks_return env pre codes ->
  result_of (check_file f) env = Raised e ->
  main (pre ++ f :: post) env
  = ((EvPrint banner
       :: flat_map (fun g => trace_of (check_file g) env) pre
       ++ trace_of (check_file f) env)%list, Raised e).
Proof.
  intros Hpre Hf. unfold main.
  unfold bind at 1. cbn [print]. unfold bind at 1.
  rewrite (run_loop_raises _ _ _ post _ Hpre Hf 0). reflexivity.
Qed.

(** Either every check returns, or there is a first one that raises. *)
Lemma checks_return_or_raise (filenames : list string) :
  (exists codes, checks_return env filenames codes)
  \/ (exists pre f post codes e,
         filenames = (pre ++ f :: post)%list
         /\ checks_return env pre codes
         /\ result_of (check_file f) env = Raised e).
Proof.
  induction filenames as [|g gs IH].
  - left. exists []. constructor.
  - destruct (result_of (check_file g) env) as [c|e] eqn:Hg.
    + destruct IH as [(codes & H) | (pre & f & post & codes & e & -> & H & Hf)].
      * left. exists (c :: codes). constructor; assumption.
      * right. exists (g :: pre), f, post, (c :: codes), e.
        repeat split; [constructor; assumption | exact Hf].
    + right. exists [], g, gs, [], e. repeat split; [constructor | exact Hg].
Qed.

(** A run of [main] that returns has had every check return. *)
Lemma main_returned (filenames : list string) (code : Z) :
  result_of (main filenames) env = Returned code ->
  exists codes,
    checks_return env filenames codes /\ code = fold_left Z.lor codes 0.
Proof.
  intros H.
  destruct (checks_return_or_raise filenames)
    as [(codes & Hc) | (pre & f & post & codes & e & -> & Hc & Hf)].
  - exists codes. split; [exact Hc|].
    unfold result_of in H. rewrite (run_main _ _ _ Hc) in H.
    cbn in H. congruence.
  - unfold result_of in H. rewrite (run_main_raises _ _ _ post _ Hc Hf) in H.
    discriminate.
Qed.

Lemma checks_return_app (xs ys : list string) (cx cy : list Z) :
  checks_return env xs cx -> checks_return env ys cy ->
  checks_return env (xs ++ ys) (cx ++ cy).
Proof. apply Forall2_app. Qed.

Lemma checks_return_In (filenames : list string) (codes : list Z) (f : string) :
  checks_return env filenames codes -> In f filenames ->
  exists c, In c codes /\ result_of (check_file f) env = Returned c.
Proof.
  induction 1 as [|g c gs cs Hg _ IH]; intros Hin; [contradiction|].
  destruct Hin as [<- | Hin].
  - exists c. split; [left; reflexivity | exact Hg].
  - destruct (IH Hin) as (c' & Hc' & Hf). exists c'. split; [right|]; assumption.
Qed.

Lemma checks_return_code_In (filenames : list string) (codes : list Z) (c : Z) :
  checks_return env filenames codes -> In c codes ->
  exists f, In f filenames /\ result_of (check_file f) env = Returned c.
Proof.
  induction 1 as [|g d gs cs Hg _ IH]; intros Hin; [contradiction|].
  destruct Hin as [<- | Hin].
  - exists g. split; [left; reflexivity | exact Hg].
  - destruct (IH Hin) as (f & Hf & Hr). exists f. split; [right|]; assumption.
Qed.

End MainMore.

Section OrMore.

Lemma fold_lor_from (codes : list Z) (acc : Z) :
  fold_left Z.lor codes acc = Z.lor acc (fold_left Z.lor codes 0).
Proof.
  revert acc. induction codes as [|c cs IH]; intros acc; cbn [fold_left].
  - rewrite Z.lor_0_r. reflexivity.
  - rewrite (IH (Z.lor acc c)), (IH (Z.lor 0 c)).
    rewrite Z.lor_0_l, Z.lor_assoc. reflexivity.
Qed.

Lemma fold_lor_app (xs ys : list Z) :
  fold_left Z.lor (xs ++ ys) 0
  = Z.lor (fold_left Z.lor xs 0) (fold_left Z.lor ys 0).
Proof. rewrite fold_left_app. apply fold_lor_from. Qed.

End OrMore.

Section ExtraHelpers.

Variable env : Env.

Lemma calls_of_prints (lines : list string) :
  sniff_calls (map EvPrint lines) = []
  /\ extract_calls (map EvPrint lines) = [].
Proof. induction lines as [|l ls [IH1 IH2]]; split; cbn; auto. Qed.


Lemma checks_return_of_each (filenames : list string) :
  (forall f, In f filenames ->
             exists c, result_of (check_file f) env = Returned c) ->
  exists codes, checks_return env filenames codes.
Proof.
  induction filenames as [|f fs IH]; intros H.
  - exists []. constructor.
  - destruct (H f (or_introl eq_refl)) as [c Hc].
    destruct IH as [codes Hcodes].
    { intros g Hg. apply H. right. exact Hg. }
    exists (c :: codes). constructor; assumption.
Qed.

Lemma all_zero_transfer (xs ys : list string) (cx cy : list Z) :
  checks_return env xs cx -> checks_return env ys cy ->
  incl ys xs ->
  Forall (fun c => c = 0) cx -> Forall (fun c => c = 0) cy.
Proof.
  intros Hx Hy Hincl Hzero. apply Forall_forall. intros c Hc.
  destruct (checks_return_code_In env _ _ _ Hy Hc) as (f & Hf & Hr).
  destruct (checks_return_In env _ _ _ Hx (Hincl f Hf)) as (c' & Hc' & Hr').
  rewrite Forall_forall in Hzero. rewrite <- (Hzero c' Hc'). congruence.
Qed.

Lemma silent_checks (filenames : list string) (codes : list Z) :
  checks_return env filenames codes ->
  Forall (fun c => c = 0) codes ->
  stdout (flat_map (fun f => trace_of (check_file f) env) filenames) = [].
Proof.
  induction 1 as [|f c fs cs Hf _ IH]; intros Hz; [reflexivity|].
  inversion Hz as [|? ? Hc Hcs]; subst.
  cbn [flat_map]. rewrite stdout_app, (zero_is_silent env f Hf), IH by exact Hcs.
  reflexivity.
Qed.


End ExtraHelpers.

(** ** Further properties of [check_file] *)

(** X1.  When the size query raises on a file, [check_file] raises that
    same exception at once: it prints no diagnostic, returns no code and
    calls neither the sniffer nor the extractor. *)
Theorem size_query_error_leaves_check_file
        (env : Env) (filename : string) (e : PyException) :
  env_getsize env filename = Raised e ->
  result_of (check_file filename) env = Raised e
  /\ trace_of (check_file filename) env = [EvGetsize filename]
  /\ stdout (trace_of (check_file filename) env) = []
  /\ sniff_calls (trace_of (check_file filename) env) = []
  /\ extract_calls (trace_of (check_file filename) env) = [].
Proof.
  intros H. unfold result_of, trace_of.
  rewrite (run_getsize_raises _ _ _ H). repeat split.
Qed.

Lemma size_query_error_leaves_check_file_witness :
  env_getsize Fixtures.world "gone.go" = Raised Fixtures.FileNotFoundError
  /\ result_of (check_file "gone.go") Fixtures.world
     = Raised Fixtures.FileNotFoundError.
Proof.
  split; [reflexivity|].
  exact (proj1 (size_query_error_leaves_check_file Fixtures.world "gone.go"
                  Fixtures.FileNotFoundError eq_refl)).
Defined.



(** X3.  Whatever the environment, [check_file] begins with the size query
    on its file, consults the sniffer and the extractor at most once each
    and on that file only, and never hands the type [text/plain] to the
    extractor. *)
Theorem oracle_calls_stay_on_the_file (env : Env) (filename : string) :
  let t := trace_of (check_file filename) env in
  (exists rest, t = EvGetsize filename :: rest)
  /\ (forall ev, In ev t ->
        match ev with
        | EvGetsize path => path = filename
        | EvFromFile path => path = filename
        | EvExtract path mime => path = filename /\ mime <> "text/plain"
        | EvPrint _ => True
        end)
  /\ (length (sniff_calls t) <= 1)%nat
  /\ (length (extract_calls t) <= 1)%nat.
Proof.
  unfold trace_of.
  destruct (check_file_paths env filename)
    as [(e & _ & ->) | [(_ & ->) | [(e & ->) | [(m & e & ->)
       | [(m & ->) | (m & missing & ->)]]]]];
    cbn [fst]; (split; [eexists; reflexivity|]);
    (split; [|try (cbn; lia)]).
  1-5: intros ev Hin; cbn in Hin;
    repeat (destruct Hin as [<- | Hin]; [first [reflexivity | exact I
      | split; [reflexivity | apply remap_mime_never_plain]]|]);
    contradiction.
  - intros ev Hin. cbn in Hin.
    destruct Hin as [<- | [<- | [<- | [<- | Hin]]]];
      try reflexivity; try exact I.
    + split; [reflexivity | apply remap_mime_never_plain].
    + apply in_map_iff in Hin. destruct Hin as (l & <- & _). exact I.
  - cbn. destruct (calls_of_prints missing) as [-> ->]. cbn. lia.
Qed.

(** X4.  Because neither notice holds a newline, the newline-joined text
    contains a notice exactly when a single comment does.  So a non-empty
    file that is sniffed and parsed passes exactly when some comment holds
    the copyright text and some comment holds the license text; a notice
    split over two comments does not count. *)
Theorem pass_iff_each_notice_in_one_comment
        (env : Env) (filename : string) (size : Z) (mime : string)
        (cs : list Comment) :
  env_getsize env filename = Returned size ->
  size <> 0 ->
  env_from_file env filename = Returned mime ->
  env_extract_comments env filename (remap_mime mime) = Returned cs ->
  (result_of (check_file filename) env = Returned 0
   <-> (exists c, In c cs /\ Substring COPYRIGHT_TEXT (text c))
       /\ (exists c, In c cs /\ Substring LICENSE_TEXT (text c))).
Proof.
  intros Hs Hn Hm Hx. unfold result_of.
  rewrite (run_extracted _ _ _ Hs Hn _ Hm _ Hx). cbn zeta. cbn [snd].
  destruct notices_are_single_line as (Hc1 & Hc2 & Hl1 & Hl2).
  assert (Hin : forall needle,
             (exists part, In part (map text cs) /\ Substring needle part)
             <-> (exists c, In c cs /\ Substring needle (text c))).
  { intros needle. split.
    - intros (p & Hp & Hsub). apply in_map_iff in Hp.
      destruct Hp as (c & <- & Hc). exists c. auto.
    - intros (c & Hc & Hsub). exists (text c). split; [|exact Hsub].
      apply in_map. exact Hc. }
  rewrite <- !Hin.
  rewrite <- (Substring_join COPYRIGHT_TEXT (map text cs) Hc1 Hc2).
  rewrite <- (Substring_join LICENSE_TEXT (map text cs) Hl1 Hl2).
  change (join LF (map text cs)) with (joined_comments cs).
  rewrite <- !str_in_Substring.
  destruct (str_in COPYRIGHT_TEXT (joined_comments cs));
    destruct (str_in LICENSE_TEXT (joined_comments cs)); cbn;
    split; try discriminate; try tauto; intros [? ?]; discriminate.
Qed.

Lemma pass_iff_each_notice_in_one_comment_witness :
  result_of (check_file "run.sh") Fixtures.world = Returned 0
  <-> (exists c, In c [Fixtures.copyright_comment]
                 /\ Substring COPYRIGHT_TEXT (text c))
      /\ (exists c, In c [Fixtures.copyright_comment]
                    /\ Substring LICENSE_TEXT (text c)).
Proof.
  apply (pass_iff_each_notice_in_one_comment Fixtures.world "run.sh" 256
           "text/x-shellscript" [Fixtures.copyright_comment]).
  - reflexivity.
  - lia.
  - reflexivity.
  - reflexivity.
Defined.

(** ** Further properties of [main] *)

(** X5.  [main] stops at the first path whose size cannot be read: the
    files before it are checked as usual, the run ends with that size
    query and raises its exception, the files after it are not touched and
    no summary line is printed. *)
Theorem first_unreadable_file_aborts
        (env : Env) (pre : list string) (codes : list Z) (f : string)
        (post : list string) (e : PyException) :
  checks_return env pre codes ->
  env_getsize env f = Raised e ->
  main (pre ++ f :: post) env
  = ((EvPrint banner
       :: flat_map (fun g => trace_of (check_file g) env) pre
       ++ [EvGetsize f])%list, Raised e).
Proof.
  intros Hpre Hf.
  assert (Hr : result_of (check_file f) env = Raised e).
  { unfold result_of. rewrite (run_getsize_raises _ _ _ Hf). reflexivity. }
  rewrite (run_main_raises _ _ _ _ post _ Hpre Hr).
  unfold trace_of at 2. rewrite (run_getsize_raises _ _ _ Hf). reflexivity.
Qed.

Lemma first_unreadable_file_aborts_witness :
  main ["good.go"; "gone.go"; "half.go"] Fixtures.world
  = ([EvPrint banner;
      EvGetsize "good.go"; EvFromFile "good.go";
      EvExtract "good.go" "text/x-c++";
      EvGetsize "gone.go"], Raised Fixtures.FileNotFoundError).
Proof.
  assert (Hpre : checks_return Fixtures.world ["good.go"] [0])
    by (repeat constructor).
  exact (first_unreadable_file_aborts Fixtures.world ["good.go"] [0]
           "gone.go" ["half.go"] Fixtures.FileNotFoundError Hpre eq_refl).
Defined.

(** X6.  [main] returns a code only if the size of every listed path
    could be read: one path whose size query raises, anywhere in the list,
    keeps [main] from returning. *)
Theorem main_returns_only_if_sizes_readable
        (env : Env) (filenames : list string) (code : Z) :
  result_of (main filenames) env = Returned code ->
  Forall (fun f => exists size, env_getsize env f = Returned size) filenames.
Proof.
  intros H. apply main_returned in H.
  destruct H as (codes & Hc & _). apply Forall_forall. intros f Hf.
  destruct (checks_return_In env _ _ _ Hc Hf) as (c & _ & Hr).
  destruct (env_getsize env f) as [size|e] eqn:Hs; [eauto|].
  unfold result_of in Hr. rewrite (run_getsize_raises _ _ _ Hs) in Hr.
  discriminate.
Qed.

Lemma main_returns_only_if_sizes_readable_witness :
  result_of (main ["good.go"; "locked.go"]) Fixtures.world = Returned 1
  /\ Forall (fun f => exists size,
                env_getsize Fixtures.world f = Returned size)
            ["good.go"; "locked.go"].
Proof.
  split; [reflexivity|].
  exact (main_returns_only_if_sizes_readable Fixtures.world
           ["good.go"; "locked.go"] 1 eq_refl).
Defined.

(** X7.  Whenever [main] returns, what it returns is 0 or 1. *)
Theorem main_exit_code (env : Env) (filenames : list string) (code : Z) :
  result_of (main filenames) env = Returned code ->
  code = 0 \/ code = 1.
Proof.
  intros H. apply main_returned in H. destruct H as (codes & Hc & ->).
  apply (fold_lor_code codes (checks_return_codes env _ _ Hc) 0).
  left. reflexivity.
Qed.

Lemma main_exit_code_witness :
  result_of (main ["run.sh"; "half.go"; "locked.go"]) Fixtures.world
  = Returned 1
  /\ (1 = 0 \/ 1 = 1).
Proof.
  split; [reflexivity|].
  exact (main_exit_code Fixtures.world ["run.sh"; "half.go"; "locked.go"] 1
           eq_refl).
Defined.

(** X8.  A run of [main] that returns 0 prints the banner and nothing
    else. *)
Theorem passing_run_prints_only_the_banner
        (env : Env) (filenames : list string) :
  result_of (main filenames) env = Returned 0 ->
  stdout (trace_of (main filenames) env) = [banner].
Proof.
  intros H. apply main_returned in H. destruct H as (codes & Hc & Hzero).
  unfold trace_of. rewrite (run_main _ _ _ Hc). rewrite <- Hzero.
  cbn [fst Z.eqb stdout]. rewrite app_nil_r. f_equal.
  apply (silent_checks env _ _ Hc).
  apply (fold_lor_code codes (checks_return_codes env _ _ Hc) 0);
    [left; reflexivity | symmetry; exact Hzero].
Qed.

Lemma passing_run_prints_only_the_banner_witness :
  result_of (main ["good.go"; "empty.go"; "good.go"]) Fixtures.world
  = Returned 0
  /\ stdout (trace_of (main ["good.go"; "empty.go"; "good.go"])
                      Fixtures.world)
     = [banner].
Proof.
  split; [reflexivity|].
  exact (passing_run_prints_only_the_banner Fixtures.world
           ["good.go"; "empty.go"; "good.go"] eq_refl).
Defined.



(** X10.  Checking a list in two batches gives the same verdict as
    checking it in one go: when [main] returns on each of two lists, it
    returns the OR of the two codes on their concatenation. *)
Theorem batches_compose
        (env : Env) (xs ys : list string) (cx cy : Z) :
  result_of (main xs) env = Returned cx ->
  result_of (main ys) env = Returned cy ->
  result_of (main (xs ++ ys)) env = Returned (Z.lor cx cy).
Proof.
  intros Hx Hy. apply main_returned in Hx, Hy.
  destruct Hx as (codes_x & Hcx & ->). destruct Hy as (codes_y & Hcy & ->).
  unfold result_of.
  rewrite (run_main _ _ _ (checks_return_app env _ _ _ _ Hcx Hcy)).
  cbn [snd]. rewrite fold_lor_app. reflexivity.
Qed.

Lemma batches_compose_witness :
  result_of (main (["good.go"; "empty.go"] ++ ["half.go"])) Fixtures.world
  = Returned (Z.lor 0 1).
Proof.
  apply (batches_compose Fixtures.world ["good.go"; "empty.go"] ["half.go"]
           0 1); reflexivity.
Defined.

(** X11.  The code [main] returns depends only on which files are listed,
    not on their order or on repetitions: if it returns a code on one list,
    it returns the same code on any list with the same members. *)
Theorem verdict_ignores_order_and_repeats
        (env : Env) (xs ys : list string) (code : Z) :
  incl xs ys -> incl ys xs ->
  result_of (main xs) env = Returned code ->
  result_of (main ys) env = Returned code.
Proof.
  intros Hxy Hyx Hx. apply main_returned in Hx.
  destruct Hx as (codes_x & Hcx & ->).
  destruct (checks_return_of_each env ys) as [codes_y Hcy].
  { intros f Hf. destruct (checks_return_In env _ _ _ Hcx (Hyx f Hf))
      as (c & _ & Hr). eauto. }
  unfold result_of. rewrite (run_main _ _ _ Hcy). cbn [snd]. f_equal.
  destruct (fold_lor_code codes_x (checks_return_codes env _ _ Hcx) 0
              (or_introl eq_refl)) as [Hbx Hzx].
  destruct (fold_lor_code codes_y (checks_return_codes env _ _ Hcy) 0
              (or_introl eq_refl)) as [Hby Hzy].
  pose proof (all_zero_transfer env _ _ _ _ Hcx Hcy Hyx) as Hto_y.
  pose proof (all_zero_transfer env _ _ _ _ Hcy Hcx Hxy) as Hto_x.
  destruct Hbx as [Hbx | Hbx]; destruct Hby as [Hby | Hby];
    rewrite ?Hbx, ?Hby; try reflexivity; exfalso.
  - assert (fold_left Z.lor codes_y 0 = 0) by (apply Hzy; tauto). lia.
  - assert (fold_left Z.lor codes_x 0 = 0) by (apply Hzx; tauto). lia.
Qed.

Lemma verdict_ignores_order_and_repeats_witness :
  result_of (main ["half.go"; "good.go"; "half.go"]) Fixtures.world
  = Returned 1.
Proof.
  apply (verdict_ignores_order_and_repeats Fixtures.world
           ["good.go"; "half.go"] ["half.go"; "good.go"; "half.go"] 1).
  - intros f [<- | [<- | []]]; cbn; tauto.
  - intros f [<- | [<- | [<- | []]]]; cbn; tauto.
  - reflexivity.
Defined.
